(** * parity-bridge: the findContracts scripts

    A shallow embedding of [jsTests/findContracts.js] (two scripts that
    scan a fixed range of block numbers and print the receipts that
    created a contract) and of the fixtures of
    [truffle/test/message_signing.js].

    The scripts are callback code over an external provider ([./utils]).
    A call to the provider is recorded as an _effect_ that carries the
    completion handler passed to it; what a handler does is the list of
    effects it performs, in program order, together with the way it
    completes.  When and in which order the provider invokes the handlers
    is the provider's business and is not fixed here; a call to the
    provider itself returns to the script without throwing. *)

From Stdlib Require Import List String Ascii ZArith Bool Lia.
From Stdlib Require Import DecimalString DecimalZ DecimalPos Sorted.
Import ListNotations.

Local Open Scope string_scope.
Local Open Scope Z_scope.

Set Warnings "-register-all".

(** ** JavaScript values *)

(** The values a JSON-RPC provider can deliver.  Numbers are the
    integer-valued ones plus [NaN]; an object is the list of its own
    properties, looked up by the first binding of a key. *)
Inductive value : Type :=
| VUndefined
| VNull
| VBool (b : bool)
| VNum (n : Z)
| VNaN
| VStr (s : string)
| VArr (elems : list value)
| VObj (props : list (string * value)).

(** [ToBoolean]: the falsy values are [undefined], [null], [false], [0],
    [NaN] and the empty string. *)
Definition truthy (v : value) : bool :=
  match v with
  | VUndefined | VNull | VNaN => false
  | VBool b => b
  | VNum n => negb (n =? 0)
  | VStr s => negb (String.eqb s "")
  | VArr _ | VObj _ => true
  end.

Definition falsy (v : value) : bool := negb (truthy v).

(** ** Completions and the effect monad *)

Inductive js_error : Type :=
| TypeError.

(** How the evaluation of a statement ends: normally, by a [return], by a
    thrown error, or outside the fragment of the language modelled here. *)
Inductive completion (A : Type) : Type :=
| Normal (a : A)
| Return
| Throw (e : js_error)
| Unsupported.

Arguments Normal {A} a.
Arguments Return {A}.
Arguments Throw {A} e.
Arguments Unsupported {A}.

(** The calls the scripts make to the outside.  A provider call carries its
    arguments as written: the chain label, the block number or transaction
    hash, and the completion handler. *)
Inductive effect : Type :=
| GetBlockData (label : string) (i : Z)
               (callback : value -> list effect * completion unit)
| GetTxReceipt (label : string) (txHash : value)
               (callback : value -> list effect * completion unit)
| ConsoleLog (args : list value).

(** A computation performs effects, in order, and completes. *)
Definition M (A : Type) : Type := list effect * completion A.

(** What calling a function yields: its effects and its completion, which
    is [Normal] or [Throw] (or [Unsupported]), never [Return]. *)
Definition outcome : Type := M unit.

(** A completion handler. *)
Definition handler : Type := value -> outcome.

Definition ret {A} (a : A) : M A := ([], Normal a).

Definition bind {A B} (m : M A) (k : A -> M B) : M B :=
  match m with
  | (t, Normal a) => let (t', c) := k a in ((t ++ t')%list, c)
  | (t, Return) => (t, Return)
  | (t, Throw e) => (t, Throw e)
  | (t, Unsupported) => (t, Unsupported)
  end.

Definition perform (e : effect) : M unit := ([e], Normal tt).
Definition return_ {A} : M A := ([], Return).
Definition throw {A} (e : js_error) : M A := ([], Throw e).
Definition unsupported {A} : M A := ([], Unsupported).

Declare Scope js_scope.
Delimit Scope js_scope with js.
Notation "'let*' x ':=' m 'in' k" := (bind m (fun x => k))
  (at level 10, x name, m at level 100, k at level 200) : js_scope.
Notation "m ';;' k" := (bind m (fun _ => k))
  (at level 100, k at level 200, right associativity) : js_scope.
Local Open Scope js_scope.

(** [function (x) { body }]: a [return] in the body ends the call. *)
Definition js_function (body : value -> M unit) : handler :=
  fun x =>
    match body x with
    | (t, Return) => (t, Normal tt)
    | r => r
    end.

(** [if (c) s] with no [else]. *)
Definition when (c : bool) (s : M unit) : M unit :=
  if c then s else ret tt.

(** [for (let j = a; j < b; j++) body], [n] being the number of [j] from
    [a] on with [j < b].  The body assigns neither [j] nor the bound. *)
Fixpoint for_loop {I : Type} (succ : I -> I) (n : nat) (j : I)
         (body : I -> M unit) : M unit :=
  match n with
  | O => ret tt
  | S n' => body j ;; for_loop succ n' (succ j) body
  end.

(** ** Property reads *)

Fixpoint lookup (k : string) (props : list (string * value)) : value :=
  match props with
  | [] => VUndefined
  | (k', v) :: rest => if String.eqb k k' then v else lookup k rest
  end.

(** Decimal form of an integer, as JavaScript writes an array index or an
    integer-valued number that it holds exactly (numbers from [1e21] on
    are written with an exponent instead). *)
Definition decimal (n : Z) : string := NilZero.string_of_int (Z.to_int n).

(** [v.name] for a name that is not an index and that the prototypes do
    not define, or for [length]: reading a property of [undefined] or
    [null] throws a [TypeError]; an array and a string have a [length]. *)
Definition get_prop (v : value) (name : string) : M value :=
  match v with
  | VUndefined | VNull => throw TypeError
  | VObj props => ret (lookup name props)
  | VArr elems =>
      if String.eqb name "length" then ret (VNum (Z.of_nat (List.length elems)))
      else ret VUndefined
  | VStr s =>
      if String.eqb name "length" then ret (VNum (Z.of_nat (String.length s)))
      else ret VUndefined
  | VBool _ | VNum _ | VNaN => ret VUndefined
  end.

(** [v[j]] for a counter [j >= 0].  The strings of the model are ASCII:
    JavaScript counts and indexes a string by UTF-16 unit. *)
Definition get_index (v : value) (j : nat) : M value :=
  match v with
  | VUndefined | VNull => throw TypeError
  | VArr elems => ret (nth j elems VUndefined)
  | VStr s =>
      match String.get j s with
      | Some c => ret (VStr (String c EmptyString))
      | None => ret VUndefined
      end
  | VObj props => ret (lookup (decimal (Z.of_nat j)) props)
  | VBool _ | VNum _ | VNaN => ret VUndefined
  end.

(** The number of counters [j = 0, 1, ...] with [j < bound]: [ToNumber]
    of the bound, no counter at all being below [NaN].  The conversion of
    strings, arrays and objects to numbers is not modelled: JavaScript
    converts such a bound and loops, or throws a [TypeError] when it has no
    primitive value; [Unsupported] stands for either. *)
Definition trip_count (bound : value) : M nat :=
  match bound with
  | VNum n => ret (Z.to_nat n)
  | VUndefined | VNaN => ret O
  | VNull => ret O
  | VBool b => ret (if b then 1%nat else O)
  | VStr _ | VArr _ | VObj _ => unsupported
  end.

(** ** The console *)

(** The integers a JavaScript number holds exactly, up to
    [Number.MAX_SAFE_INTEGER] in magnitude. *)
Definition is_safe_integer (n : Z) : bool := Z.abs n <=? 9007199254740991.

(** How [console.log] writes one argument when its stream is not a colour
    terminal: a string as it is, the other primitive values by their
    literal, a safe integer in decimal digits.  The inspector's rendering
    of other numbers, of arrays and of objects is not modelled. *)
Definition format_arg (v : value) : option string :=
  match v with
  | VStr s => Some s
  | VNum n => if is_safe_integer n then Some (decimal n) else None
  | VNaN => Some "NaN"
  | VUndefined => Some "undefined"
  | VNull => Some "null"
  | VBool b => Some (if b then "true" else "false")
  | VArr _ | VObj _ => None
  end.

Fixpoint has_percent (s : string) : bool :=
  match s with
  | EmptyString => false
  | String c rest => Ascii.eqb c "%"%char || has_percent rest
  end.

Fixpoint join_args (args : list value) : option string :=
  match args with
  | [] => Some ""
  | [v] => format_arg v
  | v :: rest =>
      match format_arg v, join_args rest with
      | Some s, Some r => Some (s ++ " " ++ r)
      | _, _ => None
      end
  end.

(** The line one call [console.log(a, b, ...)] writes when its stream is
    not a colour terminal: the arguments, separated by one space each.  A
    first argument with a [%] in it is a format string, which is not
    modelled. *)
Definition console_line (args : list value) : option string :=
  match args with
  | VStr fmt :: _ => if has_percent fmt then None else join_args args
  | _ => join_args args
  end.

(** *** The console under any inspector *)

(** [console.log] writes a string argument as it is and hands every other
    argument to the runtime's inspector, which is no part of the sources:
    it is a parameter [inspect] here.  On a colour terminal the inspector
    wraps a number in colour codes, and it writes a number from [1e21] on
    with an exponent. *)
Definition written (inspect : value -> string) (v : value) : string :=
  match v with
  | VStr s => s
  | _ => inspect v
  end.

Fixpoint join_written (inspect : value -> string) (args : list value) : string :=
  match args with
  | [] => ""
  | [v] => written inspect v
  | v :: rest => written inspect v ++ " " ++ join_written inspect rest
  end.

(** The line feed. *)
Definition LF : string := String "010"%char EmptyString.

(** The text one call [console.log(a, b, ...)] sends to its stream: the
    arguments as written, one space between two of them, and a line feed
    at the end. *)
Definition console_text (inspect : value -> string) (args : list value)
  : option string :=
  match args with
  | VStr fmt :: _ =>
      if has_percent fmt then None else Some (join_written inspect args ++ LF)
  | _ => Some (join_written inspect args ++ LF)
  end.

(** The text a sequence of calls sends, in order. *)
Fixpoint console_output (inspect : value -> string) (calls : list (list value))
  : option string :=
  match calls with
  | [] => Some ""
  | args :: rest =>
      match console_text inspect args, console_output inspect rest with
      | Some t, Some r => Some (t ++ r)
      | _, _ => None
      end
  end.

Fixpoint has_line_break (s : string) : bool :=
  match s with
  | EmptyString => false
  | String c rest => Ascii.eqb c "010"%char || has_line_break rest
  end.

(** The lines of a text: each ends at a line feed, the last one also at
    the end of the text. *)
Fixpoint split_lines (s : string) : list string :=
  match s with
  | EmptyString => []
  | String c rest =>
      if Ascii.eqb c "010"%char then EmptyString :: split_lines rest
      else match split_lines rest with
           | [] => [String c EmptyString]
           | l :: ls => String c l :: ls
           end
  end.

(** ** The provider *)

(** Modelled from the spec: [./utils] is not part of the sources.  Its two
    lookups take a chain label and a block number, or a transaction hash,
    and invoke the supplied completion handler with the block-like value
    (or an absent value), or with the receipt. *)
Record provider : Type := {
  block_of : string -> Z -> value;
  receipt_of : string -> value -> value
}.

(** The [console.log] calls an effect leads to when the provider answers
    every lookup by invoking its handler once, each handler's calls in
    program order.  The scripts catch nothing, so a handler that throws
    ends the run: the calls listed here are all printed when no handler
    throws ([handlers_complete]), and bound what is printed otherwise. *)
Fixpoint logs_of (p : provider) (e : effect) {struct e} : list (list value) :=
  match e with
  | ConsoleLog args => [args]
  | GetBlockData l i callback =>
      flat_map (logs_of p) (fst (callback (block_of p l i)))
  | GetTxReceipt l h callback =>
      flat_map (logs_of p) (fst (callback (receipt_of p l h)))
  end.

Definition logs (p : provider) (t : list effect) : list (list value) :=
  flat_map (logs_of p) t.

Definition is_normal (c : completion unit) : bool :=
  match c with
  | Normal _ => true
  | _ => false
  end.

(** Every handler that an effect leads to completes normally on the value
    the provider delivers to it. *)
Fixpoint handlers_complete (p : provider) (e : effect) {struct e} : bool :=
  match e with
  | ConsoleLog _ => true
  | GetBlockData l i callback =>
      is_normal (snd (callback (block_of p l i))) &&
      forallb (handlers_complete p) (fst (callback (block_of p l i)))
  | GetTxReceipt l h callback =>
      is_normal (snd (callback (receipt_of p l h))) &&
      forallb (handlers_complete p) (fst (callback (receipt_of p l h)))
  end.

(** The provider lookups among the effects of a computation. *)
Definition block_lookups (t : list effect) : list (string * Z) :=
  flat_map (fun e => match e with
                     | GetBlockData l i _ => [(l, i)]
                     | _ => []
                     end) t.

Definition receipt_lookups (t : list effect) : list (string * value) :=
  flat_map (fun e => match e with
                     | GetTxReceipt l h _ => [(l, h)]
                     | _ => []
                     end) t.

Definition console_logs (t : list effect) : list (list value) :=
  flat_map (fun e => match e with
                     | ConsoleLog args => [args]
                     | _ => []
                     end) t.

(** ** The first script: blocks 116611 to 116710 *)

Module Script1.

(** The body of [function(txRes) { if (txRes.contractAddress)
    console.log(...) }], in the iteration of block number [i]: [let i]
    gives every iteration an [i] of its own, which the handlers close
    over. *)
Definition getTxReceipt_body (i : Z) (txRes : value) : M unit :=
  let* c := get_prop txRes "contractAddress" in
  if truthy c then
    let* a := get_prop txRes "contractAddress" in
    perform (ConsoleLog [VStr "block number = "; VNum i;
                         VStr "contract address = "; a])
  else ret tt.

Definition getTxReceipt_callback (i : Z) : handler :=
  js_function (getTxReceipt_body i).

(** One turn of [for (let j = 0; j < res.transactions.length; j++)], in
    the iteration of block number [i]. *)
Definition loop_body (i : Z) (res : value) (j : nat) : M unit :=
  let* txs := get_prop res "transactions" in
  let* txHash := get_index txs j in
  when (falsy txHash) return_ ;;
  perform (GetTxReceipt "left" txHash (getTxReceipt_callback i)).

(** The body of [function(res) { if (!res) return; for (...) { ... } }],
    in the iteration of block number [i]. *)
Definition getBlockData_body (i : Z) (res : value) : M unit :=
  when (falsy res) return_ ;;
  let* txs := get_prop res "transactions" in
  let* len := get_prop txs "length" in
  let* n := trip_count len in
  for_loop S n 0%nat (loop_body i res).

Definition getBlockData_callback (i : Z) : handler :=
  js_function (getBlockData_body i).

(** [for (let i = 116611; i < 116711; i++) utils.getBlockData("left", i, ...)] *)
Definition main : M unit :=
  for_loop Z.succ (Z.to_nat (116711 - 116611)) 116611 (fun i =>
    perform (GetBlockData "left" i (getBlockData_callback i))).

End Script1.

(** ** The second script: blocks 258728 to 258927 *)

Module Script2.

Definition getTxReceipt_body (i : Z) (txRes : value) : M unit :=
  let* c := get_prop txRes "contractAddress" in
  if truthy c then
    let* a := get_prop txRes "contractAddress" in
    perform (ConsoleLog [VStr "block number = "; VNum i;
                         VStr "contract address = "; a])
  else ret tt.

Definition getTxReceipt_callback (i : Z) : handler :=
  js_function (getTxReceipt_body i).

Definition loop_body (i : Z) (res : value) (j : nat) : M unit :=
  let* txs := get_prop res "transactions" in
  let* txHash := get_index txs j in
  when (falsy txHash) return_ ;;
  perform (GetTxReceipt "left" txHash (getTxReceipt_callback i)).

Definition getBlockData_body (i : Z) (res : value) : M unit :=
  when (falsy res) return_ ;;
  let* txs := get_prop res "transactions" in
  let* len := get_prop txs "length" in
  let* n := trip_count len in
  for_loop S n 0%nat (loop_body i res).

Definition getBlockData_callback (i : Z) : handler :=
  js_function (getBlockData_body i).

(** [for (let i = 258728; i < 258928; i++) utils.getBlockData("left", i, ...)] *)
Definition main : M unit :=
  for_loop Z.succ (Z.to_nat (258928 - 258728)) 258728 (fun i =>
    perform (GetBlockData "left" i (getBlockData_callback i))).

End Script2.

(** ** The message-signing test *)

(** [truffle/test/message_signing.js] calls the contract's
    [recoverAddressFromSignedMessage] on two fixtures and compares the
    result with a literal address.  The contract is deployed on a chain and
    is no part of the test file: the test is a function of what the call
    returns. *)
Module MessageSigningTest.

Record fixture : Type := {
  signature : string;
  message : string;
  account : string
}.

Definition short_message : fixture := {|
  signature := "0xb585c41f3cceb2ff9b5c033f2edbefe93415bde365489c989bad8cef3b18e38148a13e100608a29735d709fe708926d37adcecfffb32b1d598727028a16df5db1b";
  message := "0xdeadbeaf";
  account := "0x006e27b6a72e1f34c626762f3c4761547aff1421"
|}.

Definition long_message : fixture := {|
  signature := "0x3c9158597e22fa43fcc6636399c560441808e1d8496de0108e401a2ad71022b15d1191cf3c96e06759601c8e00ce7f03f350c12b19d0a8ba3ab3c07a71063f2b1c";
  message := "0x111111111111111111111111111111111111111111111111111111111111111111111111111111111111111111111111111111111111111111111111";
  account := "0x006e27b6a72e1f34c626762f3c4761547aff1421"
|}.

(** [assert.equal(account, result)] on two strings. *)
Definition assert_equal (expected actual : string) : bool :=
  String.eqb expected actual.

(** One test, given the function the deployed contract computes. *)
Definition test (recoverAddressFromSignedMessage : string -> string -> string)
           (f : fixture) : bool :=
  assert_equal (account f)
               (recoverAddressFromSignedMessage (signature f) (message f)).

(** The number of bytes a [0x] hex string denotes. *)
Definition hex_bytes (s : string) : nat := ((String.length s - 2) / 2)%nat.

End MessageSigningTest.

(** ** Vocabulary of the statements *)

(** [res.transactions] is the array [txs]. *)
Definition has_transactions (res : value) (txs : list value) : Prop :=
  get_prop res "transactions" = ret (VArr txs).

(** [txRes.contractAddress] is [a] ([undefined] when the field is absent). *)
Definition contract_address (txRes : value) (a : value) : Prop :=
  get_prop txRes "contractAddress" = ret a.

(** The longest prefix of a list of hashes all of whose members are truthy. *)
Fixpoint truthy_prefix (txs : list value) : list value :=
  match txs with
  | [] => []
  | h :: rest => if truthy h then h :: truthy_prefix rest else []
  end.

(** The receipt lookup the loop of block number [i] issues for a hash. *)
Definition receipt_request (i : Z) (h : value) : effect :=
  GetTxReceipt "left" h (Script1.getTxReceipt_callback i).

(** The handlers a script installs: the block handler it passes with block
    number [i], and the receipt handlers that one passes on. *)
Definition block_handler_of (main : M unit) (i : Z) (H : handler) : Prop :=
  exists l, In (GetBlockData l i H) (fst main).

Definition receipt_handler_of (main : M unit) (i : Z) (cb : handler) : Prop :=
  exists H res l h,
    block_handler_of main i H /\ In (GetTxReceipt l h cb) (fst (H res)).

(** [lo <= i < hi] *)
Definition in_range (lo hi i : Z) : bool := (lo <=? i) && (i <? hi).

(** The line as the specification words it. *)
Definition spec_line (n address : string) : string :=
  "block number = " ++ n ++ " contract address = " ++ address.

(** The line with the separators [console.log] adds. *)
Definition printed_line (n address : string) : string :=
  "block number =  " ++ n ++ " contract address =  " ++ address.

(** [s] occurs in [t]. *)
Definition occurs_in (s t : string) : Prop :=
  exists pre post, t = pre ++ s ++ post.

(** The block numbers [lo, lo + 1, ...], [n] of them. *)
Fixpoint Zseq (lo : Z) (n : nat) : list Z :=
  match n with
  | O => []
  | S n' => lo :: Zseq (Z.succ lo) n'
  end.

(** A block with the given transaction hashes, and a receipt with the given
    contract address, as the provider delivers them. *)
Definition example_block (txs : list value) : value :=
  VObj [("number", VNum 116611); ("transactions", VArr txs)].

Definition example_receipt (a : value) : value :=
  VObj [("transactionHash", VStr "0xaa"); ("contractAddress", a)].

(** A provider that knows one block, 116611, with the one transaction
    [0xaa], whose receipt created the contract [0xc0ffee]; every other block
    is absent. *)
Definition example_provider : provider := {|
  block_of := fun _ i =>
    if i =? 116611 then example_block [VStr "0xaa"] else VNull;
  receipt_of := fun _ _ => example_receipt (VStr "0xc0ffee")
|}.

(** A provider whose chain has no block. *)
Definition empty_chain : provider := {|
  block_of := fun _ _ => VNull;
  receipt_of := fun _ _ => VNull
|}.



(** A loop bound that the comparison [j < bound] takes as it is or turns
    into a number without looking into it: a number, a boolean, [null] or
    [undefined]. *)
Definition numeric_bound (v : value) : bool :=
  match v with
  | VStr _ | VArr _ | VObj _ => false
  | _ => true
  end.

(** Whenever [res.transactions.length] can be read, it is such a bound. *)
Definition plain_bound (res : value) : Prop :=
  forall t len,
    get_prop res "transactions" = ret t -> get_prop t "length" = ret len ->
    numeric_bound len = true.

(** Two inspectors for the examples: one that writes a safe integer in
    decimal digits, as on a pipe, and one that wraps these digits in the
    colour codes of yellow, as on a terminal. *)
Definition pipe_inspect (v : value) : string :=
  match format_arg v with
  | Some s => s
  | None => "[Object]"
  end.

Definition ESC : string := String "027"%char EmptyString.

Definition terminal_inspect (v : value) : string :=
  match v with
  | VNum _ => ESC ++ "[33m" ++ pipe_inspect v ++ ESC ++ "[39m"
  | _ => pipe_inspect v
  end.

(** The integers JavaScript numbers hold exactly, which are printed in
    plain decimal: up to [Number.MAX_SAFE_INTEGER] in magnitude. *)
Definition safe_integer (n : Z) : Prop := Z.abs n <= 9007199254740991.

(** The arguments of the one [console.log] call of the scripts. *)
Definition log_args (i : Z) (a : value) : list value :=
  [VStr "block number = "; VNum i; VStr "contract address = "; a].

(** The lookups a script issues for the block numbers [lo, lo + 1, ...],
    [n] of them. *)
Definition scan (lo : Z) (n : nat) : list effect :=
  map (fun i => GetBlockData "left" i (Script1.getBlockData_callback i))
      (Zseq lo n).

Fixpoint has_space (s : string) : bool :=
  match s with
  | EmptyString => false
  | String c rest => Ascii.eqb c " "%char || has_space rest
  end.

(** ** Laws of the effect monad *)

Lemma bind_ret {A B} (a : A) (k : A -> M B) : bind (ret a) k = k a.
Proof. unfold bind, ret. destruct (k a). reflexivity. Qed.

Lemma bind_perform {B} (e : effect) (k : unit -> M B) :
  bind (perform e) k = (e :: fst (k tt), snd (k tt)).
Proof. unfold bind, perform. destruct (k tt). reflexivity. Qed.

Lemma bind_return {A B} (k : A -> M B) : bind return_ k = return_.
Proof. reflexivity. Qed.

Lemma bind_throw {A B} (e : js_error) (k : A -> M B) : bind (throw e) k = throw e.
Proof. reflexivity. Qed.

Lemma bind_effects {A B} (P : effect -> Prop) (m : M A) (k : A -> M B) :
  Forall P (fst m) -> (forall a, Forall P (fst (k a))) ->
  Forall P (fst (bind m k)).
Proof.
  intros Hm Hk. destruct m as [t c]. simpl in Hm.
  destruct c as [a | | e | ]; simpl; auto.
  specialize (Hk a). destruct (k a) as [t' c']. simpl in *.
  apply Forall_app. split; assumption.
Qed.

Lemma for_loop_effects {I} (P : effect -> Prop) (succ : I -> I)
      (body : I -> M unit) :
  (forall j, Forall P (fst (body j))) ->
  forall n j, Forall P (fst (for_loop succ n j body)).
Proof.
  intros Hbody. induction n as [| n IH]; intros j; simpl.
  - constructor.
  - apply bind_effects; auto.
Qed.

Lemma js_function_effects (body : value -> M unit) (x : value) :
  fst (js_function body x) = fst (body x).
Proof.
  unfold js_function. destruct (body x) as [t c]. destruct c; reflexivity.
Qed.

Lemma get_prop_pure (v : value) (name : string) : fst (get_prop v name) = [].
Proof.
  destruct v; simpl; try reflexivity;
    destruct (String.eqb name "length"); reflexivity.
Qed.

Lemma get_index_pure (v : value) (j : nat) : fst (get_index v j) = [].
Proof.
  destruct v; simpl; try reflexivity. destruct (String.get j s); reflexivity.
Qed.

Lemma trip_count_pure (v : value) : fst (trip_count v) = [].
Proof. destruct v; reflexivity. Qed.

(** ** Strings *)

Lemma string_app_nil_r (x : string) : x ++ "" = x.
Proof. induction x as [| c x IH]; simpl; [| rewrite IH]; reflexivity. Qed.

Lemma string_app_assoc (x y z : string) : (x ++ y) ++ z = x ++ y ++ z.
Proof. induction x as [| c x IH]; simpl; [| rewrite IH]; reflexivity. Qed.

(** ** The two scripts have the same handlers *)

Lemma receipt_callbacks_agree (i : Z) :
  Script2.getTxReceipt_callback i = Script1.getTxReceipt_callback i.
Proof. reflexivity. Qed.

Lemma block_bodies_agree (i : Z) :
  Script2.getBlockData_body i = Script1.getBlockData_body i.
Proof. reflexivity. Qed.

Lemma block_callbacks_agree (i : Z) :
  Script2.getBlockData_callback i = Script1.getBlockData_callback i.
Proof. reflexivity. Qed.

(** ** The receipt handler *)

Lemma receipt_body_truthy (i : Z) (txRes a : value) :
  contract_address txRes a -> truthy a = true ->
  Script1.getTxReceipt_body i txRes =
  ([ConsoleLog [VStr "block number = "; VNum i;
                VStr "contract address = "; a]], Normal tt).
Proof.
  unfold contract_address, Script1.getTxReceipt_body. intros H Ha.
  rewrite H, bind_ret, Ha, bind_ret. reflexivity.
Qed.

Lemma receipt_body_falsy (i : Z) (txRes a : value) :
  contract_address txRes a -> truthy a = false ->
  Script1.getTxReceipt_body i txRes = ([], Normal tt).
Proof.
  unfold contract_address, Script1.getTxReceipt_body. intros H Ha.
  rewrite H, bind_ret, Ha. reflexivity.
Qed.

Lemma receipt_callback_absent (i : Z) (txRes : value) :
  txRes = VUndefined \/ txRes = VNull ->
  Script1.getTxReceipt_callback i txRes = ([], Throw TypeError).
Proof. intros [-> | ->]; reflexivity. Qed.

Lemma receipt_callback_present (i : Z) (txRes : value) :
  txRes <> VUndefined -> txRes <> VNull ->
  exists a, contract_address txRes a /\
            Script1.getTxReceipt_callback i txRes =
            (if truthy a
             then [ConsoleLog [VStr "block number = "; VNum i;
                               VStr "contract address = "; a]]
             else [], Normal tt).
Proof.
  intros Hu Hn.
  assert (exists a, contract_address txRes a) as [a Ha].
  { unfold contract_address. destruct txRes; simpl; try congruence; eauto. }
  exists a. split; [exact Ha |].
  unfold Script1.getTxReceipt_callback, js_function.
  destruct (truthy a) eqn:Et.
  - rewrite (receipt_body_truthy i txRes a Ha Et). reflexivity.
  - rewrite (receipt_body_falsy i txRes a Ha Et). reflexivity.
Qed.

(** ** The block handler *)

Lemma has_transactions_object (res : value) (txs : list value) :
  has_transactions res txs ->
  exists props, res = VObj props /\ lookup "transactions" props = VArr txs.
Proof.
  unfold has_transactions. intros H.
  destruct res; simpl in H; try discriminate.
  exists props. split; [reflexivity |]. unfold ret in H. congruence.
Qed.

Lemma has_transactions_truthy (res : value) (txs : list value) :
  has_transactions res txs -> falsy res = false.
Proof.
  intros H. destruct (has_transactions_object res txs H) as [props [-> _]].
  reflexivity.
Qed.

Lemma truthy_prefix_all (txs : list value) :
  forallb truthy (truthy_prefix txs) = true.
Proof.
  induction txs as [| h rest IH]; simpl; [reflexivity |].
  destruct (truthy h) eqn:Eh; simpl; [rewrite Eh; exact IH | reflexivity].
Qed.

Lemma truthy_prefix_split (txs : list value) :
  truthy_prefix txs = txs \/
  exists h post, txs = (truthy_prefix txs ++ h :: post)%list /\ truthy h = false.
Proof.
  induction txs as [| h rest IH]; simpl; [left; reflexivity |].
  destruct (truthy h) eqn:Eh.
  - destruct IH as [IH | [h' [post [IH Hh']]]].
    + left. rewrite IH. reflexivity.
    + right. exists h', post. split; [| exact Hh'].
      simpl. rewrite <- IH. reflexivity.
  - right. exists h, rest. split; [reflexivity | exact Eh].
Qed.

Lemma truthy_prefix_app (pre : list value) (h : value) (post : list value) :
  forallb truthy pre = true -> truthy h = false ->
  truthy_prefix (pre ++ h :: post)%list = pre.
Proof.
  intros Hpre Hh. induction pre as [| x pre IH]; simpl in *.
  - rewrite Hh. reflexivity.
  - apply andb_true_iff in Hpre as [Hx Hpre]. rewrite Hx, IH; auto.
Qed.

Section BlockLoop.

Variables (i : Z) (res : value) (txs : list value).
Hypothesis Htxs : has_transactions res txs.

(** From counter [length pre] on, the loop walks the rest of the list
    up to its first falsy hash, where it returns. *)
Lemma block_loop_from (post pre : list value) :
  txs = (pre ++ post)%list ->
  for_loop S (List.length post) (List.length pre) (Script1.loop_body i res) =
  (map (receipt_request i) (truthy_prefix post),
   if forallb truthy post then Normal tt else Return).
Proof.
  revert pre. induction post as [| h post IH]; intros pre E.
  - reflexivity.
  - cbn [for_loop List.length]. unfold Script1.loop_body at 1.
    rewrite Htxs, bind_ret. cbn [get_index]. rewrite bind_ret.
    rewrite E, nth_middle. cbn [truthy_prefix forallb]. unfold when, falsy.
    destruct (truthy h) eqn:Eh; cbn [negb andb].
    + rewrite bind_ret, bind_perform.
      specialize (IH (pre ++ [h])%list).
      rewrite length_app, Nat.add_1_r in IH.
      rewrite IH by (rewrite <- app_assoc; exact E).
      reflexivity.
    + reflexivity.
Qed.

Lemma block_body_array :
  Script1.getBlockData_body i res =
  (map (receipt_request i) (truthy_prefix txs),
   if forallb truthy txs then Normal tt else Return).
Proof.
  unfold Script1.getBlockData_body, when.
  rewrite (has_transactions_truthy res txs Htxs), bind_ret.
  rewrite Htxs, bind_ret. cbn [get_prop String.eqb Ascii.eqb Bool.eqb].
  rewrite bind_ret. cbn [trip_count]. rewrite bind_ret, Nat2Z.id.
  exact (block_loop_from txs [] eq_refl).
Qed.

Lemma block_callback_array :
  Script1.getBlockData_callback i res =
  (map (receipt_request i) (truthy_prefix txs), Normal tt).
Proof.
  unfold Script1.getBlockData_callback, js_function.
  rewrite block_body_array. destruct (forallb truthy txs); reflexivity.
Qed.

End BlockLoop.

(** Whatever value is delivered, the block handler of iteration [i] does
    nothing but issue receipt lookups on the chain ["left"], all with the
    receipt handler of iteration [i]. *)
Lemma block_callback_effects (i : Z) (res : value) :
  Forall (fun e => exists h, e = receipt_request i h)
         (fst (Script1.getBlockData_callback i res)).
Proof.
  unfold Script1.getBlockData_callback. rewrite js_function_effects.
  unfold Script1.getBlockData_body.
  apply bind_effects; [unfold when; destruct (falsy res); constructor |]. intros _.
  apply bind_effects; [rewrite get_prop_pure; constructor |]. intros txs.
  apply bind_effects; [rewrite get_prop_pure; constructor |]. intros len.
  apply bind_effects; [rewrite trip_count_pure; constructor |]. intros n.
  apply for_loop_effects. intros j. unfold Script1.loop_body.
  apply bind_effects; [rewrite get_prop_pure; constructor |]. intros txs'.
  apply bind_effects; [rewrite get_index_pure; constructor |]. intros h.
  apply bind_effects; [unfold when; destruct (falsy h); constructor |]. intros _.
  constructor; [| constructor]. exists h. reflexivity.
Qed.

Lemma block_callback_falsy (i : Z) (res : value) :
  truthy res = false ->
  Script1.getBlockData_body i res = ([], Return) /\
  Script1.getBlockData_callback i res = ([], Normal tt).
Proof.
  intros H. unfold Script1.getBlockData_callback, js_function.
  unfold Script1.getBlockData_body, when, falsy. rewrite H.
  split; reflexivity.
Qed.

(** ** The scanning loops *)

Lemma for_loop_perform (f : Z -> effect) (n : nat) (lo : Z) :
  for_loop Z.succ n lo (fun i => perform (f i)) = (map f (Zseq lo n), Normal tt).
Proof.
  revert lo. induction n as [| n IH]; intros lo; cbn [for_loop Zseq map].
  - reflexivity.
  - rewrite bind_perform, IH. reflexivity.
Qed.

Lemma Zseq_In (n : nat) (lo i : Z) :
  In i (Zseq lo n) <-> lo <= i < lo + Z.of_nat n.
Proof.
  revert lo. induction n as [| n IH]; intros lo; cbn [Zseq In].
  - lia.
  - rewrite IH. lia.
Qed.

Lemma Zseq_NoDup (n : nat) (lo : Z) : NoDup (Zseq lo n).
Proof.
  revert lo. induction n as [| n IH]; intros lo; cbn [Zseq]; constructor.
  - rewrite Zseq_In. lia.
  - apply IH.
Qed.

Lemma Zseq_count (n : nat) (lo i : Z) :
  count_occ Z.eq_dec (Zseq lo n) i =
  if (lo <=? i) && (i <? lo + Z.of_nat n) then 1%nat else 0%nat.
Proof.
  destruct ((lo <=? i) && (i <? lo + Z.of_nat n)) eqn:E.
  - apply andb_true_iff in E as [E1 E2].
    apply Z.leb_le in E1. apply Z.ltb_lt in E2.
    assert (Hin : In i (Zseq lo n)) by (apply Zseq_In; lia).
    apply (count_occ_In Z.eq_dec) in Hin.
    pose proof (proj1 (NoDup_count_occ Z.eq_dec (Zseq lo n)) (Zseq_NoDup n lo) i).
    lia.
  - apply count_occ_not_In. rewrite Zseq_In.
    apply andb_false_iff in E as [E | E];
      [apply Z.leb_gt in E | apply Z.ltb_ge in E]; lia.
Qed.

Lemma block_lookups_map (f : Z -> handler) (l : list Z) :
  block_lookups (map (fun i => GetBlockData "left" i (f i)) l) =
  map (fun i => ("left", i)) l.
Proof.
  induction l as [| i l IH]; [reflexivity |].
  cbn [map]. unfold block_lookups in *. cbn [flat_map]. rewrite IH. reflexivity.
Qed.

Lemma main1_effects :
  Script1.main =
  (map (fun i => GetBlockData "left" i (Script1.getBlockData_callback i))
       (Zseq 116611 100), Normal tt).
Proof. unfold Script1.main. apply for_loop_perform. Qed.

Lemma main2_effects :
  Script2.main =
  (map (fun i => GetBlockData "left" i (Script1.getBlockData_callback i))
       (Zseq 258728 200), Normal tt).
Proof. unfold Script2.main. apply (for_loop_perform _ 200 258728). Qed.

Lemma block_handler_of_scripts (i : Z) (H : handler) :
  block_handler_of Script1.main i H \/ block_handler_of Script2.main i H ->
  H = Script1.getBlockData_callback i.
Proof.
  intros [[l Hin] | [l Hin]];
    [rewrite main1_effects in Hin | rewrite main2_effects in Hin];
    cbn [fst] in Hin; apply in_map_iff in Hin as [k [E _]];
    injection E as _ <- <-; reflexivity.
Qed.

Lemma receipt_handler_of_scripts (i : Z) (cb : handler) :
  receipt_handler_of Script1.main i cb \/ receipt_handler_of Script2.main i cb ->
  cb = Script1.getTxReceipt_callback i.
Proof.
  intros Hr.
  assert (exists H res l h, H = Script1.getBlockData_callback i /\
                            In (GetTxReceipt l h cb) (fst (H res)))
    as [H [res [l [h [-> Hin]]]]].
  { destruct Hr as [[H [res [l [h [Hb Hin]]]]] | [H [res [l [h [Hb Hin]]]]]];
      exists H, res, l, h; split; try exact Hin;
      apply block_handler_of_scripts; auto. }
  pose proof (block_callback_effects i res) as Hall.
  rewrite Forall_forall in Hall. destruct (Hall _ Hin) as [h' E].
  unfold receipt_request in E. injection E as _ _ ->. reflexivity.
Qed.

(** ** Receipts: what is printed *)

(** C7.  A receipt whose [contractAddress] is falsy (empty, [null], or
    absent and so [undefined]) makes the receipt handler print nothing: it
    performs no effect at all and completes normally, in both scripts. *)
Theorem receipt_without_contract_address_prints_nothing
        (i : Z) (txRes a : value) :
  contract_address txRes a -> truthy a = false ->
  Script1.getTxReceipt_callback i txRes = ([], Normal tt) /\
  Script2.getTxReceipt_callback i txRes = ([], Normal tt) /\
  console_logs (fst (Script1.getTxReceipt_callback i txRes)) = [].
Proof.
  intros Ha Hf.
  change (Script2.getTxReceipt_callback i) with (Script1.getTxReceipt_callback i).
  unfold Script1.getTxReceipt_callback, js_function.
  rewrite (receipt_body_falsy i txRes a Ha Hf). repeat split.
Qed.

Lemma receipt_without_contract_address_prints_nothing_witness :
  Script1.getTxReceipt_callback 116611 (example_receipt VNull) = ([], Normal tt) /\
  Script2.getTxReceipt_callback 116611 (example_receipt VNull) = ([], Normal tt) /\
  console_logs (fst (Script1.getTxReceipt_callback 116611 (example_receipt VNull))) = [].
Proof.
  apply (receipt_without_contract_address_prints_nothing
           116611 (example_receipt VNull) VNull); reflexivity.
Defined.

(** An absent field and an empty string are falsy as well. *)
Example receipt_without_field :
  Script1.getTxReceipt_callback 116611 (VObj []) = ([], Normal tt) /\
  Script1.getTxReceipt_callback 116611 (example_receipt (VStr "")) =
  ([], Normal tt).
Proof. split; reflexivity. Qed.

(** The line printed for block 116611 and the contract address [0xc0ffee]. *)
Example printed_line_116611 :
  map console_line
      (console_logs
         (fst (Script1.getTxReceipt_callback
                 116611 (example_receipt (VStr "0xc0ffee"))))) =
  [Some "block number =  116611 contract address =  0xc0ffee"].
Proof. reflexivity. Qed.

(** C2, as stated, fails: for block 116611 and the contract address
    [0xc0ffee] the line the handler prints is not
    [block number = 116611 contract address = 0xc0ffee]. *)
Lemma printed_line_is_not_spec_line :
  map console_line
      (console_logs
         (fst (Script1.getTxReceipt_callback
                 116611 (example_receipt (VStr "0xc0ffee"))))) <>
  [Some (spec_line (decimal 116611) "0xc0ffee")].
Proof. vm_compute. discriminate. Qed.

Lemma has_line_break_app (x y : string) :
  has_line_break (x ++ y) = has_line_break x || has_line_break y.
Proof.
  induction x as [| c x IH]; cbn [append has_line_break]; [reflexivity |].
  rewrite IH. apply orb_assoc.
Qed.

Lemma split_lines_one (t : string) :
  has_line_break t = false -> split_lines (t ++ LF) = [t].
Proof.
  induction t as [| c t IH]; cbn [append has_line_break split_lines LF].
  - reflexivity.
  - intros H. apply orb_false_iff in H as [Hc Ht].
    rewrite Hc. fold LF. rewrite (IH Ht). reflexivity.
Qed.

Lemma console_text_log_args (inspect : value -> string) (i : Z) (a : value) :
  console_text inspect [VStr "block number = "; VNum i;
                        VStr "contract address = "; a] =
  Some (printed_line (written inspect (VNum i)) (written inspect a) ++ LF).
Proof. reflexivity. Qed.

Lemma printed_line_occurs (n address : string) :
  occurs_in n (printed_line n address) /\
  occurs_in address (printed_line n address).
Proof.
  split.
  - exists "block number =  ", (" contract address =  " ++ address). reflexivity.
  - exists ("block number =  " ++ n ++ " contract address =  "), "".
    unfold printed_line.
    rewrite string_app_nil_r, !string_app_assoc. reflexivity.
Qed.

Lemma printed_line_no_break (n address : string) :
  has_line_break n = false -> has_line_break address = false ->
  has_line_break (printed_line n address) = false.
Proof.
  intros Hn Ha. unfold printed_line.
  rewrite !has_line_break_app, Hn, Ha. reflexivity.
Qed.

(** The lines printed for block 116611 and the contract address [0xc0ffee]
    on a pipe and on a colour terminal, and for an address string with a
    line feed in it, which takes two lines. *)
Example lines_on_a_pipe :
  option_map split_lines
    (console_output pipe_inspect
       (console_logs
          (fst (Script1.getTxReceipt_callback
                  116611 (example_receipt (VStr "0xc0ffee")))))) =
  Some ["block number =  116611 contract address =  0xc0ffee"].
Proof. reflexivity. Qed.

Example lines_on_a_terminal :
  option_map split_lines
    (console_output terminal_inspect
       (console_logs
          (fst (Script1.getTxReceipt_callback
                  116611 (example_receipt (VStr "0xc0ffee")))))) =
  Some ["block number =  " ++ ESC ++ "[33m116611" ++ ESC ++
        "[39m contract address =  0xc0ffee"].
Proof. reflexivity. Qed.

Example lines_of_a_broken_address :
  option_map split_lines
    (console_output pipe_inspect
       (console_logs
          (fst (Script1.getTxReceipt_callback
                  116611 (example_receipt (VStr ("0xc0" ++ LF ++ "ffee"))))))) =
  Some ["block number =  116611 contract address =  0xc0"; "ffee"].
Proof. reflexivity. Qed.

(** C2, amended.  For a receipt whose [contractAddress] is truthy, a
    receipt handler installed by either script for block number [i] does
    one thing: it calls [console.log] with the two literals, [i] and that
    address.  Whatever the inspector, the text printed is
    [block number =  <N> contract address =  <address>] and a line feed,
    with two spaces after each [=], where [<N>] and [<address>] are the
    block number and the address as [console.log] writes them; both occur
    in it, and it is exactly one line when neither is written with a line
    feed in it. *)
Theorem receipt_with_contract_address_prints_one_line
        (inspect : value -> string) (i : Z) (cb : handler) (txRes a : value) :
  receipt_handler_of Script1.main i cb \/ receipt_handler_of Script2.main i cb ->
  contract_address txRes a -> truthy a = true ->
  cb txRes = ([ConsoleLog [VStr "block number = "; VNum i;
                           VStr "contract address = "; a]], Normal tt) /\
  console_output inspect (console_logs (fst (cb txRes))) =
    Some (printed_line (written inspect (VNum i)) (written inspect a) ++ LF) /\
  occurs_in (written inspect (VNum i))
            (printed_line (written inspect (VNum i)) (written inspect a)) /\
  occurs_in (written inspect a)
            (printed_line (written inspect (VNum i)) (written inspect a)) /\
  (has_line_break (written inspect (VNum i)) = false ->
   has_line_break (written inspect a) = false ->
   option_map split_lines
     (console_output inspect (console_logs (fst (cb txRes)))) =
   Some [printed_line (written inspect (VNum i)) (written inspect a)]).
Proof.
  intros Hcb Ha Ht. rewrite (receipt_handler_of_scripts i cb Hcb).
  assert (E : Script1.getTxReceipt_callback i txRes =
              ([ConsoleLog [VStr "block number = "; VNum i;
                            VStr "contract address = "; a]], Normal tt)).
  { unfold Script1.getTxReceipt_callback, js_function.
    rewrite (receipt_body_truthy i txRes a Ha Ht). reflexivity. }
  assert (O : console_output inspect
                (console_logs (fst (Script1.getTxReceipt_callback i txRes))) =
              Some (printed_line (written inspect (VNum i)) (written inspect a)
                    ++ LF)).
  { rewrite E. cbn [fst console_logs flat_map app console_output].
    rewrite console_text_log_args, string_app_nil_r. reflexivity. }
  destruct (printed_line_occurs (written inspect (VNum i)) (written inspect a))
    as [On Oa].
  split; [exact E |]. split; [exact O |]. split; [exact On |].
  split; [exact Oa |].
  intros Hn Hb. rewrite O. cbn [option_map].
  rewrite (split_lines_one _ (printed_line_no_break _ _ Hn Hb)). reflexivity.
Qed.

Lemma receipt_with_contract_address_prints_one_line_witness :
  option_map split_lines
    (console_output pipe_inspect
       (console_logs
          (fst (Script1.getTxReceipt_callback
                  116611 (example_receipt (VStr "0xc0ffee")))))) =
  Some [printed_line (written pipe_inspect (VNum 116611))
                     (written pipe_inspect (VStr "0xc0ffee"))].
Proof.
  apply (receipt_with_contract_address_prints_one_line
           pipe_inspect 116611 (Script1.getTxReceipt_callback 116611)
           (example_receipt (VStr "0xc0ffee")) (VStr "0xc0ffee")).
  - left. exists (Script1.getBlockData_callback 116611),
                 (example_block [VStr "0xaa"]), "left", (VStr "0xaa").
    split.
    + exists "left". left. reflexivity.
    + left. reflexivity.
  - reflexivity.
  - reflexivity.
  - reflexivity.
  - reflexivity.
Defined.

(** ** Blocks: which receipts are looked up *)

Lemma receipt_lookups_requests (i : Z) (l : list value) :
  receipt_lookups (map (receipt_request i) l) = map (fun x => ("left", x)) l.
Proof.
  unfold receipt_lookups, receipt_request.
  induction l as [| x l IH]; [reflexivity |].
  cbn [map flat_map app]. rewrite IH. reflexivity.
Qed.

(** C10.  For a block whose [transactions] is the array [txs], the block
    handler of either script issues one receipt lookup per hash of the
    longest all-truthy prefix of [txs], in list order, on the chain
    ["left"], with the hash as it stands, and nothing else.  The prefix is
    all truthy, and it is the whole list or is followed by a falsy hash. *)
Theorem receipt_lookups_are_truthy_prefix (i : Z) (res : value) (txs : list value) :
  has_transactions res txs ->
  fst (Script1.getBlockData_callback i res) =
    map (fun h => GetTxReceipt "left" h (Script1.getTxReceipt_callback i))
        (truthy_prefix txs) /\
  fst (Script2.getBlockData_callback i res) =
    map (fun h => GetTxReceipt "left" h (Script2.getTxReceipt_callback i))
        (truthy_prefix txs) /\
  receipt_lookups (fst (Script1.getBlockData_callback i res)) =
    map (fun h => ("left", h)) (truthy_prefix txs) /\
  forallb truthy (truthy_prefix txs) = true /\
  (truthy_prefix txs = txs \/
   exists h post, txs = (truthy_prefix txs ++ h :: post)%list /\ truthy h = false).
Proof.
  intros H.
  change (Script2.getBlockData_callback i) with (Script1.getBlockData_callback i).
  change (Script2.getTxReceipt_callback i) with (Script1.getTxReceipt_callback i).
  rewrite (block_callback_array i res txs H). cbn [fst].
  repeat split.
  - apply receipt_lookups_requests.
  - apply truthy_prefix_all.
  - apply truthy_prefix_split.
Qed.

Lemma receipt_lookups_are_truthy_prefix_witness :
  receipt_lookups
    (fst (Script1.getBlockData_callback
            116611 (example_block [VStr "0xaa"; VStr "0xbb"; VNull; VStr "0xcc"]))) =
  map (fun h => ("left", h))
      (truthy_prefix [VStr "0xaa"; VStr "0xbb"; VNull; VStr "0xcc"]).
Proof.
  apply (receipt_lookups_are_truthy_prefix
           116611 (example_block [VStr "0xaa"; VStr "0xbb"; VNull; VStr "0xcc"])
           [VStr "0xaa"; VStr "0xbb"; VNull; VStr "0xcc"]).
  reflexivity.
Defined.

(** C4.  When the hashes before [h] are all truthy and [h] is falsy, the
    body of the block handler ends by [return] after the lookups for the
    hashes before [h]: the handler issues no lookup for [h] nor for any
    hash after it, in either script. *)
Theorem first_falsy_hash_returns_from_handler
        (i : Z) (res : value) (pre : list value) (h : value) (post : list value) :
  has_transactions res (pre ++ h :: post)%list ->
  forallb truthy pre = true -> truthy h = false ->
  Script1.getBlockData_body i res =
    (map (fun x => GetTxReceipt "left" x (Script1.getTxReceipt_callback i)) pre,
     Return) /\
  Script2.getBlockData_body i res =
    (map (fun x => GetTxReceipt "left" x (Script2.getTxReceipt_callback i)) pre,
     Return) /\
  receipt_lookups (fst (Script1.getBlockData_callback i res)) =
    map (fun x => ("left", x)) pre /\
  receipt_lookups (fst (Script2.getBlockData_callback i res)) =
    map (fun x => ("left", x)) pre.
Proof.
  intros H Hpre Hh.
  change (Script2.getBlockData_callback i) with (Script1.getBlockData_callback i).
  change (Script2.getBlockData_body i) with (Script1.getBlockData_body i).
  change (Script2.getTxReceipt_callback i) with (Script1.getTxReceipt_callback i).
  rewrite (block_callback_array i res _ H), (block_body_array i res _ H).
  rewrite (truthy_prefix_app pre h post Hpre Hh).
  assert (Hall : forallb truthy (pre ++ h :: post)%list = false).
  { rewrite forallb_app. cbn [forallb]. rewrite Hh, andb_false_r. reflexivity. }
  rewrite Hall. cbn [fst].
  repeat split; apply receipt_lookups_requests.
Qed.

Lemma first_falsy_hash_returns_from_handler_witness :
  Script1.getBlockData_body
    116611 (example_block [VStr "0xaa"; VNull; VStr "0xbb"]) =
  ([GetTxReceipt "left" (VStr "0xaa") (Script1.getTxReceipt_callback 116611)],
   Return).
Proof.
  apply (first_falsy_hash_returns_from_handler
           116611 (example_block [VStr "0xaa"; VNull; VStr "0xbb"])
           [VStr "0xaa"] VNull [VStr "0xbb"]); reflexivity.
Defined.

(** C3 fails on the code.  For a block with the hashes [0xaa], [null],
    [0xbb], the handler of either script looks up the receipt of [0xaa]
    only: the hash [0xbb] after the missing one is not processed. *)
Theorem falsy_hash_drops_later_hashes :
  receipt_lookups
    (fst (Script1.getBlockData_callback
            116611 (example_block [VStr "0xaa"; VNull; VStr "0xbb"]))) =
    [("left", VStr "0xaa")] /\
  receipt_lookups
    (fst (Script2.getBlockData_callback
            258728 (example_block [VStr "0xaa"; VNull; VStr "0xbb"]))) =
    [("left", VStr "0xaa")] /\
  ~ In ("left", VStr "0xbb")
       (receipt_lookups
          (fst (Script1.getBlockData_callback
                  116611 (example_block [VStr "0xaa"; VNull; VStr "0xbb"])))).
Proof.
  repeat split; try reflexivity.
  cbn. intros [E | []]. discriminate E.
Qed.

(** ** Blocks: the absent and the empty *)

(** C5.  When the value delivered for a block is falsy, the body of the
    block handler ends by [return] at once, in both scripts: it performs no
    effect, so no receipt lookup is issued and nothing is printed under any
    provider.  The transactions are not read: reading them and their
    length from a falsy value would have thrown a [TypeError]. *)
Theorem absent_block_returns_immediately (i : Z) (res : value) :
  truthy res = false ->
  Script1.getBlockData_body i res = ([], Return) /\
  Script2.getBlockData_body i res = ([], Return) /\
  Script1.getBlockData_callback i res = ([], Normal tt) /\
  Script2.getBlockData_callback i res = ([], Normal tt) /\
  (forall p, logs p (fst (Script1.getBlockData_callback i res)) = []) /\
  snd (let* txs := get_prop res "transactions" in get_prop txs "length") =
    Throw TypeError.
Proof.
  intros H.
  change (Script2.getBlockData_callback i) with (Script1.getBlockData_callback i).
  change (Script2.getBlockData_body i) with (Script1.getBlockData_body i).
  destruct (block_callback_falsy i res H) as [Hb Hc]. rewrite Hb, Hc.
  repeat split.
  destruct res; try discriminate H; try reflexivity.
Qed.

Lemma absent_block_returns_immediately_witness :
  Script1.getBlockData_body 116611 VNull = ([], Return) /\
  Script2.getBlockData_body 116611 VNull = ([], Return) /\
  Script1.getBlockData_callback 116611 VNull = ([], Normal tt) /\
  Script2.getBlockData_callback 116611 VNull = ([], Normal tt) /\
  (forall p, logs p (fst (Script1.getBlockData_callback 116611 VNull)) = []) /\
  snd (let* txs := get_prop VNull "transactions" in get_prop txs "length") =
    Throw TypeError.
Proof.
  apply (absent_block_returns_immediately 116611 VNull). reflexivity.
Defined.

(** C6.  For a block whose [transactions] is the empty array, the block
    handler of either script performs no effect and completes normally:
    zero receipt lookups, and zero lines printed under any provider. *)
Theorem empty_block_no_lookups_no_output (i : Z) (res : value) :
  has_transactions res [] ->
  Script1.getBlockData_callback i res = ([], Normal tt) /\
  Script2.getBlockData_callback i res = ([], Normal tt) /\
  receipt_lookups (fst (Script1.getBlockData_callback i res)) = [] /\
  console_logs (fst (Script1.getBlockData_callback i res)) = [] /\
  (forall p, logs p (fst (Script1.getBlockData_callback i res)) = []).
Proof.
  intros H.
  change (Script2.getBlockData_callback i) with (Script1.getBlockData_callback i).
  rewrite (block_callback_array i res [] H). repeat split.
Qed.

Lemma empty_block_no_lookups_no_output_witness :
  Script1.getBlockData_callback 116611 (example_block []) = ([], Normal tt) /\
  Script2.getBlockData_callback 116611 (example_block []) = ([], Normal tt) /\
  receipt_lookups (fst (Script1.getBlockData_callback 116611 (example_block []))) = [] /\
  console_logs (fst (Script1.getBlockData_callback 116611 (example_block []))) = [] /\
  (forall p, logs p (fst (Script1.getBlockData_callback 116611 (example_block []))) = []).
Proof.
  apply (empty_block_no_lookups_no_output 116611 (example_block [])). reflexivity.
Defined.

(** ** Receipts: the missing guard *)

Lemma receipt_callback_completion (i : Z) (txRes : value) :
  (txRes = VUndefined \/ txRes = VNull) /\
  snd (Script1.getTxReceipt_callback i txRes) = Throw TypeError \/
  (txRes <> VUndefined /\ txRes <> VNull) /\
  snd (Script1.getTxReceipt_callback i txRes) = Normal tt.
Proof.
  assert (D : (txRes = VUndefined \/ txRes = VNull) \/
              (txRes <> VUndefined /\ txRes <> VNull))
    by (destruct txRes; auto; right; split; discriminate).
  destruct D as [D | [Du Dn]].
  - left. split; [exact D |]. rewrite (receipt_callback_absent i txRes D).
    reflexivity.
  - right. split; [split; assumption |].
    destruct (receipt_callback_present i txRes Du Dn) as [a [_ E]].
    rewrite E. reflexivity.
Qed.

(** C9.  The receipt handler reads [txRes.contractAddress] with no guard
    before it: in both scripts it throws a [TypeError] exactly when the
    receipt delivered is [undefined] or [null], and completes normally
    exactly when it is neither.  The block handler, which has the guard,
    completes normally on [undefined] and on [null]. *)
Theorem receipt_handler_has_no_absence_guard (i : Z) (txRes : value) :
  (snd (Script1.getTxReceipt_callback i txRes) = Throw TypeError <->
   txRes = VUndefined \/ txRes = VNull) /\
  (snd (Script2.getTxReceipt_callback i txRes) = Throw TypeError <->
   txRes = VUndefined \/ txRes = VNull) /\
  (snd (Script1.getTxReceipt_callback i txRes) = Normal tt <->
   txRes <> VUndefined /\ txRes <> VNull) /\
  (snd (Script2.getTxReceipt_callback i txRes) = Normal tt <->
   txRes <> VUndefined /\ txRes <> VNull) /\
  snd (Script1.getBlockData_callback i VUndefined) = Normal tt /\
  snd (Script1.getBlockData_callback i VNull) = Normal tt /\
  snd (Script2.getBlockData_callback i VUndefined) = Normal tt /\
  snd (Script2.getBlockData_callback i VNull) = Normal tt.
Proof.
  change (Script2.getTxReceipt_callback i) with (Script1.getTxReceipt_callback i).
  destruct (receipt_callback_completion i txRes) as [[D E] | [[Du Dn] E]];
    rewrite E; repeat split; try reflexivity; try assumption;
    try discriminate; try tauto.
Qed.

(** ** The two scripts *)

(** C8.  The block handlers of the two scripts are the same function of
    the block number and the value delivered.  Each script does nothing
    but issue block lookups, all on the chain ["left"], each with the
    block handler of its number: the first one lookup for every [i] with
    [116611 <= i < 116711] and none for any other [i], the second one for
    every [i] with [258728 <= i < 258928] and none for any other [i]. *)
Theorem scripts_differ_only_in_range :
  (forall i res,
      Script1.getBlockData_callback i res = Script2.getBlockData_callback i res) /\
  Script1.main =
    (map (fun i => GetBlockData "left" i (Script1.getBlockData_callback i))
         (Zseq 116611 100), Normal tt) /\
  Script2.main =
    (map (fun i => GetBlockData "left" i (Script2.getBlockData_callback i))
         (Zseq 258728 200), Normal tt) /\
  Forall (fun li => fst li = "left") (block_lookups (fst Script1.main)) /\
  Forall (fun li => fst li = "left") (block_lookups (fst Script2.main)) /\
  (forall i, count_occ Z.eq_dec (map snd (block_lookups (fst Script1.main))) i =
             if in_range 116611 116711 i then 1%nat else 0%nat) /\
  (forall i, count_occ Z.eq_dec (map snd (block_lookups (fst Script2.main))) i =
             if in_range 258728 258928 i then 1%nat else 0%nat).
Proof.
  assert (Hsnd : forall l : list Z, map snd (map (fun i => ("left", i)) l) = l).
  { induction l as [| x l IH]; [reflexivity |]. cbn [map snd]. rewrite IH.
    reflexivity. }
  assert (Hlab : forall l : list Z,
             Forall (fun li : string * Z => fst li = "left")
                    (map (fun i => ("left", i)) l)).
  { intros l. apply Forall_forall. intros li Hin.
    apply in_map_iff in Hin as [x [<- _]]. reflexivity. }
  split; [reflexivity |].
  split; [exact main1_effects |].
  split; [exact main2_effects |].
  rewrite main1_effects, main2_effects. cbn [fst].
  rewrite !block_lookups_map, !Hsnd.
  repeat split; try apply Hlab; intros i; unfold in_range.
  - exact (Zseq_count 100 116611 i).
  - exact (Zseq_count 200 258728 i).
Qed.

(** ** The fixtures of the message-signing test *)

Import MessageSigningTest.

(** Both fixtures carry a 65-byte signature and expect the same 20-byte
    account; the messages are 4 and 60 bytes long. *)
Lemma fixtures_shape :
  hex_bytes (signature short_message) = 65%nat /\
  hex_bytes (signature long_message) = 65%nat /\
  hex_bytes (message short_message) = 4%nat /\
  hex_bytes (message long_message) = 60%nat /\
  hex_bytes (account short_message) = 20%nat /\
  account long_message = account short_message.
Proof. repeat split. Qed.

(** ** The block handler on any value *)

Lemma bind_effects_normal {A B} (P : effect -> Prop) (m : M A) (k : A -> M B) :
  Forall P (fst m) -> (forall a, snd m = Normal a -> Forall P (fst (k a))) ->
  Forall P (fst (bind m k)).
Proof.
  intros Hm Hk. destruct m as [t c]. cbn [fst snd] in *.
  destruct c as [a | | e | ]; cbn [bind fst]; auto.
  specialize (Hk a eq_refl). destruct (k a) as [t' c']. cbn [fst] in *.
  apply Forall_app. split; assumption.
Qed.

Lemma get_prop_cases (v : value) (name : string) :
  (v = VUndefined \/ v = VNull) /\ get_prop v name = throw TypeError \/
  v <> VUndefined /\ v <> VNull /\ exists t, get_prop v name = ret t.
Proof.
  destruct v; cbn [get_prop]; auto;
    right; (split; [discriminate |]); (split; [discriminate |]);
    try destruct (String.eqb name "length"); eauto.
Qed.

Lemma get_index_present (v : value) (j : nat) :
  v <> VUndefined -> v <> VNull -> exists x, get_index v j = ret x.
Proof.
  intros Hu Hn. destruct v; cbn [get_index]; try congruence; eauto.
  destruct (String.get j s); eauto.
Qed.

Lemma trip_count_cases (v : value) :
  trip_count v = unsupported \/ exists n, trip_count v = ret n.
Proof. destruct v; cbn [trip_count]; eauto. Qed.

Lemma for_loop_completion {I} (succ : I -> I) (body : I -> M unit) :
  (forall j, snd (body j) = Normal tt \/ snd (body j) = Return) ->
  forall n j, snd (for_loop succ n j body) = Normal tt \/
              snd (for_loop succ n j body) = Return.
Proof.
  intros Hbody. induction n as [| n IH]; intros j; cbn [for_loop].
  - left. reflexivity.
  - destruct (Hbody j) as [E | E]; destruct (body j) as [t c];
      cbn [snd] in E; subst c; cbn [bind].
    + destruct (IH (succ j)) as [E' | E'];
        destruct (for_loop succ n (succ j) body) as [t' c'];
        cbn [snd] in *; auto.
    + right. reflexivity.
Qed.

Lemma loop_body_completion (i : Z) (res t : value) (j : nat) :
  get_prop res "transactions" = ret t -> t <> VUndefined -> t <> VNull ->
  snd (Script1.loop_body i res j) = Normal tt \/
  snd (Script1.loop_body i res j) = Return.
Proof.
  intros Ht Hu Hn. unfold Script1.loop_body. rewrite Ht, bind_ret.
  destruct (get_index_present t j Hu Hn) as [x Hx]. rewrite Hx, bind_ret.
  unfold when. destruct (falsy x).
  - right. reflexivity.
  - left. reflexivity.
Qed.

(** The ways a call of the block handler can go. *)
Lemma block_callback_cases (i : Z) (res : value) :
  truthy res = false /\
    Script1.getBlockData_callback i res = ([], Normal tt) \/
  (truthy res = true /\
   exists t, get_prop res "transactions" = ret t /\
             (t = VUndefined \/ t = VNull)) /\
    Script1.getBlockData_callback i res = ([], Throw TypeError) \/
  (truthy res = true /\
   exists t, get_prop res "transactions" = ret t /\
             t <> VUndefined /\ t <> VNull) /\
    (Script1.getBlockData_callback i res = ([], Unsupported) \/
     snd (Script1.getBlockData_callback i res) = Normal tt).
Proof.
  destruct (truthy res) eqn:Etr.
  2: { left. split; [reflexivity |]. apply block_callback_falsy. exact Etr. }
  right.
  assert (Hres : exists t, get_prop res "transactions" = ret t).
  { destruct (get_prop_cases res "transactions") as [[[-> | ->] _] | [_ [_ H]]];
      try discriminate Etr. exact H. }
  destruct Hres as [t Ht].
  unfold Script1.getBlockData_callback, js_function, Script1.getBlockData_body.
  unfold when at 1. unfold falsy. rewrite Etr. cbn [negb]. rewrite bind_ret.
  rewrite Ht, bind_ret.
  destruct (get_prop_cases t "length") as [[Habs E] | [Hu [Hn [len E]]]];
    rewrite E.
  - left. split; [| reflexivity]. split; [reflexivity |]. eauto.
  - right. split; [split; [reflexivity |]; eauto |].
    rewrite bind_ret.
    destruct (trip_count_cases len) as [E' | [n E']]; rewrite E'.
    + left. reflexivity.
    + right. rewrite bind_ret.
      destruct (for_loop_completion S (Script1.loop_body i res)
                  (fun j => loop_body_completion i res t j Ht Hu Hn) n 0%nat)
        as [El | El];
        destruct (for_loop S n 0%nat (Script1.loop_body i res)) as [tl cl];
        cbn [snd] in El; subst cl; reflexivity.
Qed.

Lemma block_callback_truthy_requests (i : Z) (res : value) :
  Forall (fun e => exists h, truthy h = true /\ e = receipt_request i h)
         (fst (Script1.getBlockData_callback i res)).
Proof.
  unfold Script1.getBlockData_callback. rewrite js_function_effects.
  unfold Script1.getBlockData_body.
  apply bind_effects; [unfold when; destruct (falsy res); constructor |]. intros _.
  apply bind_effects; [rewrite get_prop_pure; constructor |]. intros txs.
  apply bind_effects; [rewrite get_prop_pure; constructor |]. intros len.
  apply bind_effects; [rewrite trip_count_pure; constructor |]. intros n.
  apply for_loop_effects. intros j. unfold Script1.loop_body.
  apply bind_effects; [rewrite get_prop_pure; constructor |]. intros txs'.
  apply bind_effects; [rewrite get_index_pure; constructor |]. intros h.
  apply bind_effects_normal; [unfold when; destruct (falsy h); constructor |].
  intros [] Hn. constructor; [| constructor]. exists h. split; [| reflexivity].
  unfold when, falsy in Hn. destruct (truthy h); [reflexivity | discriminate Hn].
Qed.

(** X1.  Whatever value is delivered, the block handler of either script
    does nothing but issue receipt lookups on the chain ["left"], each with
    a truthy hash and the receipt handler of its own block number: it makes
    no [console.log] call and no block lookup of its own. *)
Theorem block_handler_only_looks_up_truthy_hashes (i : Z) (res : value) :
  Forall (fun e => exists h, truthy h = true /\
                     e = GetTxReceipt "left" h (Script1.getTxReceipt_callback i))
         (fst (Script1.getBlockData_callback i res)) /\
  Forall (fun e => exists h, truthy h = true /\
                     e = GetTxReceipt "left" h (Script2.getTxReceipt_callback i))
         (fst (Script2.getBlockData_callback i res)) /\
  console_logs (fst (Script1.getBlockData_callback i res)) = [] /\
  block_lookups (fst (Script1.getBlockData_callback i res)) = [] /\
  console_logs (fst (Script2.getBlockData_callback i res)) = [] /\
  block_lookups (fst (Script2.getBlockData_callback i res)) = [].
Proof.
  change (Script2.getBlockData_callback i) with (Script1.getBlockData_callback i).
  change (Script2.getTxReceipt_callback i) with (Script1.getTxReceipt_callback i).
  pose proof (block_callback_truthy_requests i res) as H.
  assert (Hc : console_logs (fst (Script1.getBlockData_callback i res)) = [] /\
               block_lookups (fst (Script1.getBlockData_callback i res)) = []).
  { induction H as [| e t [h [_ ->]] _ [IH1 IH2]]; [split; reflexivity |].
    unfold console_logs, block_lookups in *. cbn [flat_map receipt_request app].
    split; assumption. }
  destruct Hc as [Hc1 Hc2]. repeat split; assumption.
Qed.

Lemma numeric_bound_trip_count (len : value) :
  numeric_bound len = true -> exists n, trip_count len = ret n.
Proof. destruct len; cbn [numeric_bound trip_count]; try discriminate; eauto. Qed.

(** On a value with a plain loop bound the block handler completes
    normally, or throws on its missing transactions before any lookup. *)
Lemma block_callback_plain (i : Z) (res : value) :
  plain_bound res ->
  snd (Script1.getBlockData_callback i res) = Normal tt \/
  (truthy res = true /\
   exists t, get_prop res "transactions" = ret t /\
             (t = VUndefined \/ t = VNull)) /\
  Script1.getBlockData_callback i res = ([], Throw TypeError).
Proof.
  intros Hplain.
  destruct (block_callback_cases i res)
    as [[_ E] | [[Hc E] | [[_ [t [Et [Hu Hn]]]] [E | E]]]].
  - left. rewrite E. reflexivity.
  - right. split; assumption.
  - exfalso.
    destruct (get_prop_cases t "length") as [[[-> | ->] _] | [_ [_ [len El]]]];
      try congruence.
    destruct (numeric_bound_trip_count len (Hplain t len Et El)) as [n En].
    destruct (truthy res) eqn:Etr.
    2: { destruct (block_callback_falsy i res Etr) as [_ E'].
         rewrite E' in E. discriminate E. }
    revert E.
    unfold Script1.getBlockData_callback, js_function, Script1.getBlockData_body.
    unfold when at 1. unfold falsy. rewrite Etr. cbn [negb].
    rewrite bind_ret, Et, bind_ret, El, bind_ret, En, bind_ret.
    destruct (for_loop_completion S (Script1.loop_body i res)
                (fun j => loop_body_completion i res t j Et Hu Hn) n 0%nat)
      as [El' | El'];
      destruct (for_loop S n 0%nat (Script1.loop_body i res)) as [tl cl];
      cbn [snd] in El'; subst cl; discriminate.
  - left. exact E.
Qed.

(** X2.  On a value whose loop bound [res.transactions.length], when it
    can be read, is a number, a boolean, [null] or [undefined], the block
    handler throws a [TypeError] exactly when the value is truthy and its
    [transactions] is [undefined] or [null]; it then has issued no lookup,
    and otherwise it completes normally. *)
Theorem block_handler_failure (i : Z) (res : value) :
  plain_bound res ->
  (snd (Script1.getBlockData_callback i res) = Throw TypeError <->
   truthy res = true /\
   exists t, get_prop res "transactions" = ret t /\
             (t = VUndefined \/ t = VNull)) /\
  (snd (Script2.getBlockData_callback i res) = Throw TypeError <->
   truthy res = true /\
   exists t, get_prop res "transactions" = ret t /\
             (t = VUndefined \/ t = VNull)) /\
  (snd (Script1.getBlockData_callback i res) = Normal tt \/
   Script1.getBlockData_callback i res = ([], Throw TypeError)) /\
  (snd (Script2.getBlockData_callback i res) = Normal tt \/
   Script2.getBlockData_callback i res = ([], Throw TypeError)).
Proof.
  intros Hplain.
  change (Script2.getBlockData_callback i) with (Script1.getBlockData_callback i).
  assert (Hiff : snd (Script1.getBlockData_callback i res) = Throw TypeError <->
                 truthy res = true /\
                 exists t, get_prop res "transactions" = ret t /\
                           (t = VUndefined \/ t = VNull)).
  { destruct (block_callback_plain i res Hplain) as [E | [Hc E]].
    - rewrite E. split; [discriminate |]. intros Hc.
      destruct (block_callback_cases i res)
        as [[Hf E'] | [[_ E'] | [[_ [t [Et [Hu Hn]]]] _]]].
      + destruct Hc as [Hc _]. congruence.
      + rewrite E' in E. discriminate E.
      + destruct Hc as [_ [t' [Et' [-> | ->]]]]; unfold ret in *; congruence.
    - rewrite E. cbn [snd]. tauto. }
  assert (Hor : snd (Script1.getBlockData_callback i res) = Normal tt \/
                Script1.getBlockData_callback i res = ([], Throw TypeError)).
  { destruct (block_callback_plain i res Hplain) as [E | [_ E]]; auto. }
  split; [exact Hiff | split; [exact Hiff | split; exact Hor]].
Qed.

Lemma block_handler_failure_witness :
  Script1.getBlockData_callback 116611 (VObj [("number", VNum 116611)]) =
  ([], Throw TypeError).
Proof.
  destruct (block_handler_failure 116611 (VObj [("number", VNum 116611)]))
    as [_ [_ [[E | E] _]]].
  - intros t len Ht Hl. cbn in Ht. injection Ht as <-. cbn in Hl.
    discriminate Hl.
  - cbn in E. discriminate E.
  - exact E.
Defined.

(** ** More on the block handler *)

Lemma truthy_prefix_id (txs : list value) :
  forallb truthy txs = true -> truthy_prefix txs = txs.
Proof.
  induction txs as [| x txs IH]; cbn [forallb truthy_prefix]; [reflexivity |].
  intros H. apply andb_true_iff in H as [Hx H]. rewrite Hx, IH; auto.
Qed.

Lemma truthy_prefix_length (txs : list value) :
  (List.length (truthy_prefix txs) <= List.length txs)%nat /\
  (List.length (truthy_prefix txs) = List.length txs <->
   forallb truthy txs = true).
Proof.
  induction txs as [| x txs [IHle IHeq]]; cbn [forallb truthy_prefix List.length].
  - split; [lia | tauto].
  - destruct (truthy x); cbn [List.length andb].
    + split; [lia |]. rewrite <- IHeq. lia.
    + split; [lia |]. split; [lia | discriminate].
Qed.

Lemma for_loop_ext {I} (succ : I -> I) (body body' : I -> M unit) :
  (forall j, body j = body' j) ->
  forall n j, for_loop succ n j body = for_loop succ n j body'.
Proof.
  intros H. induction n as [| n IH]; intros j; cbn [for_loop]; [reflexivity |].
  rewrite H. destruct (body' j) as [t c]. destruct c; cbn [bind]; try reflexivity.
  rewrite IH. reflexivity.
Qed.

(** X3.  For a block all of whose hashes are truthy, the body of the block
    handler runs to its end (it does not [return]) after one receipt lookup
    per hash, in list order, in both scripts. *)
Theorem all_truthy_hashes_are_all_looked_up
        (i : Z) (res : value) (txs : list value) :
  has_transactions res txs -> forallb truthy txs = true ->
  Script1.getBlockData_body i res =
    (map (fun h => GetTxReceipt "left" h (Script1.getTxReceipt_callback i)) txs,
     Normal tt) /\
  Script2.getBlockData_body i res =
    (map (fun h => GetTxReceipt "left" h (Script2.getTxReceipt_callback i)) txs,
     Normal tt) /\
  receipt_lookups (fst (Script1.getBlockData_callback i res)) =
    map (fun h => ("left", h)) txs.
Proof.
  intros H Hall.
  change (Script2.getBlockData_body i) with (Script1.getBlockData_body i).
  change (Script2.getTxReceipt_callback i) with (Script1.getTxReceipt_callback i).
  rewrite (block_body_array i res txs H), (block_callback_array i res txs H).
  rewrite Hall, (truthy_prefix_id txs Hall). cbn [fst].
  repeat split. apply receipt_lookups_requests.
Qed.

Lemma all_truthy_hashes_are_all_looked_up_witness :
  receipt_lookups
    (fst (Script1.getBlockData_callback
            116611 (example_block [VStr "0xaa"; VStr "0xbb"]))) =
  [("left", VStr "0xaa"); ("left", VStr "0xbb")].
Proof.
  apply (all_truthy_hashes_are_all_looked_up
           116611 (example_block [VStr "0xaa"; VStr "0xbb"])
           [VStr "0xaa"; VStr "0xbb"]); reflexivity.
Defined.

(** X4.  For a block whose [transactions] is an array, the block handler
    issues at most as many receipt lookups as the block has hashes, and
    exactly as many if and only if every hash is truthy. *)
Theorem lookup_count_bounded_by_transactions
        (i : Z) (res : value) (txs : list value) :
  has_transactions res txs ->
  (List.length (fst (Script1.getBlockData_callback i res)) <= List.length txs)%nat /\
  (List.length (fst (Script2.getBlockData_callback i res)) <= List.length txs)%nat /\
  (List.length (fst (Script1.getBlockData_callback i res)) = List.length txs <->
   forallb truthy txs = true).
Proof.
  intros H.
  change (Script2.getBlockData_callback i) with (Script1.getBlockData_callback i).
  rewrite (block_callback_array i res txs H). cbn [fst]. rewrite length_map.
  destruct (truthy_prefix_length txs) as [Hle Heq].
  split; [exact Hle | split; [exact Hle | exact Heq]].
Qed.

Lemma lookup_count_bounded_by_transactions_witness :
  (List.length
     (fst (Script1.getBlockData_callback
             116611 (example_block [VStr "0xaa"; VNull; VStr "0xbb"]))) <=
   List.length [VStr "0xaa"; VNull; VStr "0xbb"])%nat.
Proof.
  apply (lookup_count_bounded_by_transactions
           116611 (example_block [VStr "0xaa"; VNull; VStr "0xbb"])
           [VStr "0xaa"; VNull; VStr "0xbb"]).
  reflexivity.
Defined.

(** X5.  The block handler looks at nothing of the value delivered but its
    truthiness and its [transactions]: two values that agree on both give
    the same lookups and the same completion.  In particular a block's own
    [number] plays no part; the handlers use the loop's [i]. *)
Theorem block_handler_reads_only_transactions (i : Z) (res res' : value) :
  truthy res = truthy res' ->
  get_prop res "transactions" = get_prop res' "transactions" ->
  Script1.getBlockData_callback i res = Script1.getBlockData_callback i res' /\
  Script2.getBlockData_callback i res = Script2.getBlockData_callback i res'.
Proof.
  intros Ht Hp.
  change (Script2.getBlockData_callback i) with (Script1.getBlockData_callback i).
  assert (E : Script1.getBlockData_body i res = Script1.getBlockData_body i res').
  { assert (Hb : forall j, Script1.loop_body i res j = Script1.loop_body i res' j)
      by (intros j; unfold Script1.loop_body; rewrite Hp; reflexivity).
    unfold Script1.getBlockData_body, falsy. rewrite Ht, Hp.
    destruct (when (negb (truthy res')) return_) as [t0 c0].
    destruct c0; cbn [bind]; try reflexivity.
    destruct (get_prop res' "transactions") as [t1 c1].
    destruct c1 as [txs | | e | ]; cbn [bind]; try reflexivity.
    destruct (get_prop txs "length") as [t2 c2].
    destruct c2 as [len | | e | ]; cbn [bind]; try reflexivity.
    destruct (trip_count len) as [t3 c3].
    destruct c3 as [n | | e | ]; cbn [bind]; try reflexivity.
    rewrite (for_loop_ext S _ _ Hb). reflexivity. }
  unfold Script1.getBlockData_callback, js_function. rewrite E.
  split; reflexivity.
Qed.

Lemma block_handler_reads_only_transactions_witness :
  Script1.getBlockData_callback 116611 (example_block [VStr "0xaa"]) =
  Script1.getBlockData_callback
    116611 (VObj [("transactions", VArr [VStr "0xaa"]); ("number", VNum 7)]).
Proof.
  apply (block_handler_reads_only_transactions
           116611 (example_block [VStr "0xaa"])
           (VObj [("transactions", VArr [VStr "0xaa"]); ("number", VNum 7)]));
    reflexivity.
Defined.

(** ** More on the receipt handler *)

Lemma receipt_callback_effects (i : Z) (txRes : value) :
  fst (Script1.getTxReceipt_callback i txRes) = [] \/
  exists a, contract_address txRes a /\ truthy a = true /\
            fst (Script1.getTxReceipt_callback i txRes) =
            [ConsoleLog (log_args i a)].
Proof.
  destruct (receipt_callback_completion i txRes) as [[D _] | [[Du Dn] _]].
  - left. rewrite (receipt_callback_absent i txRes D). reflexivity.
  - destruct (receipt_callback_present i txRes Du Dn) as [a [Ha E]].
    rewrite E. destruct (truthy a) eqn:Et; [right | left; reflexivity].
    exists a. repeat split; assumption.
Qed.

(** X6.  Whatever value is delivered, the receipt handler of either script
    performs no effect, or exactly one: a [console.log] call with the two
    literals, its block number and the receipt's truthy contract address.
    It never calls the provider. *)
Theorem receipt_handler_logs_at_most_once (i : Z) (txRes : value) :
  (fst (Script1.getTxReceipt_callback i txRes) = [] \/
   exists a, contract_address txRes a /\ truthy a = true /\
             fst (Script1.getTxReceipt_callback i txRes) =
             [ConsoleLog [VStr "block number = "; VNum i;
                          VStr "contract address = "; a]]) /\
  fst (Script2.getTxReceipt_callback i txRes) =
    fst (Script1.getTxReceipt_callback i txRes) /\
  (List.length (console_logs (fst (Script1.getTxReceipt_callback i txRes))) <= 1)%nat /\
  receipt_lookups (fst (Script1.getTxReceipt_callback i txRes)) = [] /\
  block_lookups (fst (Script1.getTxReceipt_callback i txRes)) = [].
Proof.
  split; [exact (receipt_callback_effects i txRes) |].
  split; [reflexivity |].
  destruct (receipt_callback_effects i txRes) as [E | [a [_ [_ E]]]];
    rewrite E; cbn; repeat split; lia.
Qed.

(** ** The scan under a provider *)

Lemma receipt_request_log (p : provider) (i : Z) (h : value) (args : list value) :
  In args (logs_of p (receipt_request i h)) <->
  exists a, contract_address (receipt_of p "left" h) a /\ truthy a = true /\
            args = log_args i a.
Proof.
  cbn [logs_of receipt_request].
  destruct (receipt_callback_effects i (receipt_of p "left" h))
    as [E | [a [Ha [Ht E]]]]; rewrite E; cbn [flat_map logs_of app In].
  - split; [tauto |]. intros [a [Ha [Ht _]]].
    assert (E' : fst (Script1.getTxReceipt_callback i (receipt_of p "left" h)) =
                 [ConsoleLog (log_args i a)]).
    { unfold Script1.getTxReceipt_callback. rewrite js_function_effects.
      rewrite (receipt_body_truthy i _ a Ha Ht). reflexivity. }
    rewrite E in E'. discriminate E'.
  - split.
    + intros [<- | []]. exists a. auto.
    + intros [a' [Ha' [_ ->]]]. left.
      unfold contract_address in *. rewrite Ha in Ha'. unfold ret in Ha'.
      congruence.
Qed.

Lemma receipt_request_lookup (i : Z) (res : value) (h : value) :
  In (receipt_request i h) (fst (Script1.getBlockData_callback i res)) <->
  In ("left", h) (receipt_lookups (fst (Script1.getBlockData_callback i res))).
Proof.
  pose proof (block_callback_effects i res) as Hall.
  unfold receipt_lookups. rewrite in_flat_map. split.
  - intros Hin. exists (receipt_request i h). split; [exact Hin |].
    left. reflexivity.
  - intros [e [Hin He]]. rewrite Forall_forall in Hall.
    destruct (Hall e Hin) as [h' ->]. cbn [receipt_request In] in He.
    destruct He as [He | []]. injection He as <-. exact Hin.
Qed.

Lemma scan_log (p : provider) (lo : Z) (n : nat) (args : list value) :
  In args (logs p (scan lo n)) <->
  exists i h a,
    lo <= i < lo + Z.of_nat n /\
    In ("left", h)
       (receipt_lookups
          (fst (Script1.getBlockData_callback i (block_of p "left" i)))) /\
    truthy h = true /\
    contract_address (receipt_of p "left" h) a /\ truthy a = true /\
    args = log_args i a.
Proof.
  unfold logs, scan. rewrite in_flat_map. split.
  - intros [e [Hin Hlog]]. apply in_map_iff in Hin as [i [<- Hi]].
    apply Zseq_In in Hi. cbn [logs_of] in Hlog.
    apply in_flat_map in Hlog as [e' [Hin' Hlog']].
    pose proof (block_callback_truthy_requests i (block_of p "left" i)) as Hall.
    rewrite Forall_forall in Hall. destruct (Hall e' Hin') as [h [Hh ->]].
    apply receipt_request_log in Hlog' as [a [Ha [Ht ->]]].
    exists i, h, a. repeat split; try assumption; try lia.
    apply receipt_request_lookup. exact Hin'.
  - intros [i [h [a [Hi [Hin [_ [Ha [Ht ->]]]]]]]].
    exists (GetBlockData "left" i (Script1.getBlockData_callback i)). split.
    + apply in_map_iff. exists i. split; [reflexivity |].
      apply Zseq_In. exact Hi.
    + cbn [logs_of]. apply in_flat_map. exists (receipt_request i h). split.
      * apply receipt_request_lookup. exact Hin.
      * apply receipt_request_log. exists a. auto.
Qed.

Lemma main1_scan : fst Script1.main = scan 116611 100.
Proof. rewrite main1_effects. reflexivity. Qed.

Lemma main2_scan : fst Script2.main = scan 258728 200.
Proof. rewrite main2_effects. reflexivity. Qed.

Lemma in_range_iff (lo : Z) (n : nat) (i : Z) :
  in_range lo (lo + Z.of_nat n) i = true <-> lo <= i < lo + Z.of_nat n.
Proof. unfold in_range. rewrite andb_true_iff, Z.leb_le, Z.ltb_lt. tauto. Qed.

(** X7.  When the provider answers every lookup by invoking its handler
    once, every [console.log] call of a script has the arguments
    ["block number = "], [i], ["contract address = "], [a], where [i] is a
    block number of the script's range, the handler of block [i] looked up
    a truthy hash [h] of the block delivered for [i], and [a] is the truthy
    contract address of the receipt delivered for [h]. *)
Theorem every_line_reports_a_contract_creation (p : provider) :
  Forall (fun args => exists i h a,
            in_range 116611 116711 i = true /\
            In ("left", h)
               (receipt_lookups
                  (fst (Script1.getBlockData_callback i (block_of p "left" i)))) /\
            truthy h = true /\
            contract_address (receipt_of p "left" h) a /\ truthy a = true /\
            args = [VStr "block number = "; VNum i;
                    VStr "contract address = "; a])
         (logs p (fst Script1.main)) /\
  Forall (fun args => exists i h a,
            in_range 258728 258928 i = true /\
            In ("left", h)
               (receipt_lookups
                  (fst (Script2.getBlockData_callback i (block_of p "left" i)))) /\
            truthy h = true /\
            contract_address (receipt_of p "left" h) a /\ truthy a = true /\
            args = [VStr "block number = "; VNum i;
                    VStr "contract address = "; a])
         (logs p (fst Script2.main)).
Proof.
  change Script2.getBlockData_callback with Script1.getBlockData_callback.
  rewrite main1_scan, main2_scan.
  split; apply Forall_forall; intros args Hin;
    apply scan_log in Hin as [i [h [a [Hi H]]]]; exists i, h, a;
    (split; [apply (in_range_iff _ _ i) in Hi; exact Hi | exact H]).
Qed.

(** X8.  Under such a provider, when no handler of the run throws, every
    contract creation within reach is reported: if [i] is in the script's
    range, the block delivered for [i] has the array [txs] as its
    transactions, [h] is in the all-truthy prefix of [txs], and the receipt
    delivered for [h] has the truthy contract address [a], then the script
    calls [console.log] with [i] and [a]. *)
Theorem contract_creations_are_reported
        (p : provider) (main : M unit) (i : Z) (txs : list value) (h a : value) :
  main = Script1.main /\ in_range 116611 116711 i = true \/
  main = Script2.main /\ in_range 258728 258928 i = true ->
  forallb (handlers_complete p) (fst main) = true ->
  has_transactions (block_of p "left" i) txs ->
  In h (truthy_prefix txs) ->
  contract_address (receipt_of p "left" h) a -> truthy a = true ->
  In [VStr "block number = "; VNum i; VStr "contract address = "; a]
     (logs p (fst main)).
Proof.
  intros Hmain _ Hb Hh Ha Ht.
  assert (Hscan : exists lo n, fst main = scan lo n /\ lo <= i < lo + Z.of_nat n).
  { destruct Hmain as [[-> Hi] | [-> Hi]].
    - exists 116611, 100%nat. split; [exact main1_scan |].
      apply (in_range_iff 116611 100 i). exact Hi.
    - exists 258728, 200%nat. split; [exact main2_scan |].
      apply (in_range_iff 258728 200 i). exact Hi. }
  destruct Hscan as [lo [n [-> Hi]]].
  apply scan_log. exists i, h, a. repeat split; try assumption; try lia.
  - rewrite (block_callback_array i _ txs Hb). cbn [fst].
    rewrite receipt_lookups_requests. apply in_map. exact Hh.
  - pose proof (truthy_prefix_all txs) as Hall.
    rewrite forallb_forall in Hall. apply Hall. exact Hh.
Qed.

Lemma contract_creations_are_reported_witness :
  In [VStr "block number = "; VNum 116611; VStr "contract address = ";
      VStr "0xc0ffee"]
     (logs example_provider (fst Script1.main)).
Proof.
  apply (contract_creations_are_reported
           example_provider Script1.main 116611 [VStr "0xaa"] (VStr "0xaa")
           (VStr "0xc0ffee")).
  - left. split; reflexivity.
  - vm_compute. reflexivity.
  - reflexivity.
  - left. reflexivity.
  - reflexivity.
  - reflexivity.
Defined.

Lemma no_member_nil {A} (l : list A) : (forall x, ~ In x l) -> l = [].
Proof.
  destruct l as [| x l]; [reflexivity |]. intros H.
  exfalso. apply (H x). left. reflexivity.
Qed.





(** X10.  Under such a provider, if every block of the two ranges is
    delivered as a falsy value or with an empty [transactions] array,
    neither script prints anything. *)
Theorem absent_or_empty_blocks_no_output (p : provider) :
  (forall i, in_range 116611 116711 i || in_range 258728 258928 i = true ->
             truthy (block_of p "left" i) = false \/
             has_transactions (block_of p "left" i) []) ->
  logs p (fst Script1.main) = [] /\ logs p (fst Script2.main) = [].
Proof.
  intros Hblocks. rewrite main1_scan, main2_scan.
  assert (Hquiet : forall i h,
             in_range 116611 116711 i || in_range 258728 258928 i = true ->
             ~ In ("left", h)
                  (receipt_lookups
                     (fst (Script1.getBlockData_callback
                             i (block_of p "left" i))))).
  { intros i h Hi Hl. destruct (Hblocks i Hi) as [Hf | He].
    - destruct (block_callback_falsy i _ Hf) as [_ E]. rewrite E in Hl.
      exact Hl.
    - rewrite (block_callback_array i _ [] He) in Hl. exact Hl. }
  split; apply no_member_nil; intros args Hin;
    apply scan_log in Hin as [i [h [a [Hi [Hl _]]]]];
    apply (Hquiet i h); try exact Hl; apply orb_true_iff; unfold in_range;
    rewrite !andb_true_iff, !Z.leb_le, !Z.ltb_lt; lia.
Qed.

Lemma absent_or_empty_blocks_no_output_witness :
  logs empty_chain (fst Script1.main) = [] /\
  logs empty_chain (fst Script2.main) = [].
Proof.
  apply (absent_or_empty_blocks_no_output empty_chain).
  intros i _. left. reflexivity.
Defined.

(** ** The two ranges *)

Lemma Zseq_sorted (n : nat) (lo : Z) : StronglySorted Z.lt (Zseq lo n).
Proof.
  revert lo. induction n as [| n IH]; intros lo; cbn [Zseq]; constructor.
  - apply IH.
  - apply Forall_forall. intros x Hx. apply Zseq_In in Hx. lia.
Qed.

Lemma block_numbers_scan (lo : Z) (n : nat) :
  map snd (block_lookups (scan lo n)) = Zseq lo n.
Proof.
  unfold scan. rewrite block_lookups_map, map_map. cbn [snd]. apply map_id.
Qed.

(** X11.  Each script issues its block lookups in strictly increasing order
    of block number, 100 of them and 200 of them, and no block number is
    looked up by both scripts. *)
Theorem scans_are_ordered_and_disjoint :
  StronglySorted Z.lt (map snd (block_lookups (fst Script1.main))) /\
  StronglySorted Z.lt (map snd (block_lookups (fst Script2.main))) /\
  List.length (block_lookups (fst Script1.main)) = 100%nat /\
  List.length (block_lookups (fst Script2.main)) = 200%nat /\
  forall i, ~ (In i (map snd (block_lookups (fst Script1.main))) /\
               In i (map snd (block_lookups (fst Script2.main)))).
Proof.
  rewrite main1_scan, main2_scan.
  assert (Hlen : forall lo n, List.length (block_lookups (scan lo n)) = n).
  { intros lo n. rewrite <- (length_map snd), block_numbers_scan.
    revert lo. induction n as [| n IH]; intros lo; cbn [Zseq List.length];
      [reflexivity | rewrite IH; reflexivity]. }
  rewrite !Hlen, !block_numbers_scan.
  repeat split; try apply Zseq_sorted.
  intros i [H1 H2]. apply Zseq_In in H1. apply Zseq_In in H2. lia.
Qed.

(** ** Reading a printed line back *)

Lemma decimal_inj (n n' : Z) : decimal n = decimal n' -> n = n'.
Proof.
  assert (Hrt : forall z, NilZero.int_of_string (decimal z) = Some (Z.to_int z)).
  { intros z. unfold decimal. apply NilZero.isi;
      destruct z as [| q | q]; cbn [Z.to_int]; try discriminate;
      intros E; injection E as E; exact (Unsigned.to_uint_nonnil q E). }
  intros E. apply to_int_inj.
  pose proof (Hrt n) as H. rewrite E, Hrt in H. congruence.
Qed.

Lemma digits_no_space (d : Decimal.uint) :
  has_space (NilEmpty.string_of_uint d) = false.
Proof. induction d; cbn [NilEmpty.string_of_uint has_space]; auto. Qed.

Lemma decimal_no_space (n : Z) : has_space (decimal n) = false.
Proof.
  unfold decimal.
  destruct (Z.to_int n) as [d | d]; cbn [NilZero.string_of_int];
    destruct d; try reflexivity;
    cbn [NilZero.string_of_uint NilEmpty.string_of_uint has_space];
    apply digits_no_space.
Qed.

Lemma split_at_space (x x' r r' : string) :
  has_space x = false -> has_space x' = false ->
  x ++ String " " r = x' ++ String " " r' -> x = x' /\ r = r'.
Proof.
  revert x'. induction x as [| c x IH]; intros [| c' x'] Hx Hx' E;
    cbn [append has_space] in *.
  - injection E as ->. split; reflexivity.
  - injection E as <- _. discriminate Hx'.
  - injection E as -> _. discriminate Hx.
  - injection E as -> E.
    apply orb_false_iff in Hx as [_ Hx]. apply orb_false_iff in Hx' as [_ Hx'].
    destruct (IH x' Hx Hx' E) as [-> ->]. split; reflexivity.
Qed.

Lemma console_line_log_args (i : Z) (s : string) :
  safe_integer i ->
  console_line (log_args i (VStr s)) = Some (printed_line (decimal i) s).
Proof.
  intros H. apply Z.leb_le in H.
  cbn [console_line log_args has_percent Ascii.eqb Bool.eqb orb join_args
       format_arg].
  unfold is_safe_integer. rewrite H. reflexivity.
Qed.

(** X12.  The line printed for a block number (a safe integer) and a
    string address determines both: two calls that print the same line
    have the same block number and the same address. *)
Theorem printed_line_determines_block_and_address (i i' : Z) (s s' : string) :
  safe_integer i -> safe_integer i' ->
  console_line [VStr "block number = "; VNum i;
                VStr "contract address = "; VStr s] =
  console_line [VStr "block number = "; VNum i';
                VStr "contract address = "; VStr s'] ->
  i = i' /\ s = s'.
Proof.
  intros Hi Hi' E.
  change (console_line (log_args i (VStr s)) =
          console_line (log_args i' (VStr s'))) in E.
  rewrite (console_line_log_args i s Hi), (console_line_log_args i' s' Hi') in E.
  unfold printed_line in E.
  cbn [append] in E. injection E as E.
  apply split_at_space in E; try apply decimal_no_space.
  destruct E as [Ed Es]. injection Es as ->.
  split; [apply decimal_inj; exact Ed | reflexivity].
Qed.

Lemma printed_line_determines_block_and_address_witness :
  116611 = 116611 /\ "0xc0ffee" = "0xc0ffee".
Proof.
  apply (printed_line_determines_block_and_address
           116611 116611 "0xc0ffee" "0xc0ffee").
  - unfold safe_integer. cbn. lia.
  - unfold safe_integer. cbn. lia.
  - reflexivity.
Defined.

(** ** Lines per block *)




